(** * jupyter-js-services: the configuration service client (src/config.ts)

    A shallow embedding of [ConfigSection] and [ConfigWithDefaults].

    - JSON objects are finite maps from property names to JSON values:
      their own properties. A property read also finds what the object
      inherits; the built-in prototypes, the objects they hold and the
      code units of a string are those of the realm the module runs in,
      taken as given.
    - JSON numbers are IEEE 754 doubles, as in JavaScript.
    - The transport settings objects are mutable and are passed around by
      reference, so they live in a store of objects addressed by location.
    - A promise is the request it issued together with the handler given
      to [then]; it is settled by feeding it the outcome of the transport. *)

From Stdlib Require Import Floats.PrimFloat Numbers.Cyclic.Int63.Uint63.
From stdpp Require Import gmap strings list fin_maps pretty.

Set Warnings "-register-all".
Set Default Proof Using "Type".

(** ** JSON values (json.ts) *)

Inductive JSONValue : Type :=
  | JNull
  | JBool (b : bool)
  | JNumber (x : float)
  | JString (s : string)
  | JArray (l : list JSONValue)
  | JObject (m : gmap string JSONValue)
  (* an object whose prototype was replaced by [proto] (an object, or
     [null] for none) through the [__proto__] setter: not JSON data, but
     [set] can make one and store it in the data *)
  | JObjectFrom (proto : JSONValue) (m : gmap string JSONValue).

Abbreviation JSONObject := (gmap string JSONValue).

(** A variable of an object type that may hold [null], as in
    [private _data: JSONObject = null]. *)
Inductive nullable (A : Type) : Type :=
  | null
  | obj (a : A).
Arguments null {A}.
Arguments obj {A} a.

(** ** The fragment of JavaScript the module relies on *)

Inductive JSError : Type :=
  | Error (message : string)          (* [Error(message)] *)
  | TypeError                         (* a property read on [null] *)
  | AjaxError (statusText : string).  (* what the transport rejected with *)

Inductive completion (A : Type) : Type :=
  | Normal (a : A)
  | Throw (e : JSError).
Arguments Normal {A} a.
Arguments Throw {A} e.

Definition cbind {A B} (c : completion A) (k : A → completion B) : completion B :=
  match c with
  | Normal a => k a
  | Throw e => Throw e
  end.

#[global] Instance completion_ret : MRet completion := @Normal.
#[global] Instance completion_bind : MBind completion := λ A B k c, cbind c k.

(** Objects of the realm that are not data of the program: the built-in
    functions and prototype objects a property read can reach. *)
Inductive HostObject : Type :=
  | host_object (name : string).

(** The result of reading a property. *)
Inductive JSValue : Type :=
  | undefined
  | json (v : JSONValue)
  | host (h : HostObject).

Definition of_lookup (o : option JSONValue) : JSValue :=
  match o with
  | Some v => json v
  | None => undefined
  end.

(** The built-in prototype a value inherits from. *)
Inductive Prototype : Type :=
  | ObjectPrototype
  | ArrayPrototype
  | StringPrototype
  | NumberPrototype
  | BooleanPrototype.

(** The realm the module runs in, as far as a property read depends on it.
    - [code_units s]: the UTF-16 code units of the string [s], each as a
      string of one unit; the [length] and the indices of a string count
      these.
    - [inherited p k]: what reading [k] gives on a value whose prototype is
      [p] and that has no own property [k]: the member found along the
      built-in chain from [p], [undefined] if there is none. The built-in
      prototypes hold data properties and the [__proto__] accessor, so
      this read does not raise.
    - [host_get h k]: reading [k] on an object of the realm, which can
      raise (the [caller] accessor of a function does). *)
Class Realm : Type := {
  code_units : string → list string;
  inherited : Prototype → string → JSValue;
  host_get : HostObject → string → completion JSValue
}.

(** [ToBoolean] on JSON values. *)
Definition truthy (v : JSONValue) : bool :=
  match v with
  | JNull => false
  | JBool b => b
  | JNumber x => negb (PrimFloat.eqb x 0%float || PrimFloat.is_nan x)
  | JString s => negb (String.eqb s "")
  | JArray _ => true
  | JObject _ => true
  | JObjectFrom _ _ => true
  end.

Definition to_boolean (v : JSValue) : bool :=
  match v with
  | undefined => false
  | json v => truthy v
  | host _ => true
  end.

(** [a || b] on values already evaluated. *)
Definition js_or (a b : JSValue) : JSValue :=
  if to_boolean a then a else b.

(** [if (s)] on a string. *)
Definition nonempty (s : string) : bool := negb (String.eqb s "").

(** The array index a property name denotes, if it is below [len]. *)
Definition array_index (k : string) (len : nat) : option nat :=
  find (λ i, bool_decide (pretty i = k)) (seq 0 len).

Definition number_of_nat (n : nat) : float :=
  PrimFloat.of_uint63 (Uint63.of_Z (Z.of_nat n)).

(** The own properties of an array, or of a string given by its code
    units: [length] and the indices. *)
Definition own_of_list (elements : list JSONValue) (k : string) : option JSONValue :=
  if String.eqb k "length" then Some (JNumber (number_of_nat (length elements)))
  else i ← array_index k (length elements); elements !! i.

(** Where the search for a property ends. *)
Inductive Search : Type :=
  | Found (v : JSONValue)       (* an own property of the value or of a
                                   prototype it was given *)
  | Builtin (p : Prototype)     (* not found before the built-in chain *)
  | NoPrototype.                (* not found, and the chain has ended *)

(** The search for [k] from [v] along the prototypes that are data. *)
Fixpoint find_property {realm : Realm} (v : JSONValue) (k : string) : Search :=
  match v with
  | JNull => NoPrototype
  | JBool _ => Builtin BooleanPrototype
  | JNumber _ => Builtin NumberPrototype
  | JString s =>
      match own_of_list (JString <$> code_units s) k with
      | Some x => Found x
      | None => Builtin StringPrototype
      end
  | JArray l =>
      match own_of_list l k with
      | Some x => Found x
      | None => Builtin ArrayPrototype
      end
  | JObject m =>
      match m !! k with
      | Some x => Found x
      | None => Builtin ObjectPrototype
      end
  | JObjectFrom proto m =>
      match m !! k with
      | Some x => Found x
      | None =>
          match proto with
          | JNull => NoPrototype
          | _ => find_property proto k
          end
      end
  end.

(** [v[k]]: reading a property of a value. On [null] the read raises. The
    [__proto__] accessor of the built-in chain returns the prototype of the
    value read: for an object whose prototype was replaced, that one. *)
Definition get_property {realm : Realm} (v : JSONValue) (k : string) : completion JSValue :=
  match v with
  | JNull => Throw TypeError
  | _ =>
      Normal
        match find_property v k with
        | Found x => json x
        | Builtin p =>
            match v with
            | JObjectFrom proto _ =>
                if String.eqb k "__proto__" then json proto else inherited p k
            | _ => inherited p k
            end
        | NoPrototype => undefined
        end
  end.

(** [v[k]] on the result of an earlier read. *)
Definition get_member {realm : Realm} (v : JSValue) (k : string) : completion JSValue :=
  match v with
  | undefined => Throw TypeError
  | json x => get_property x k
  | host h => host_get h k
  end.

(** [o[k]] on a plain object: its own property, or what it inherits. *)
Definition read_object {realm : Realm} (m : JSONObject) (k : string) : JSValue :=
  match m !! k with
  | Some x => json x
  | None => inherited ObjectPrototype k
  end.

(** [let o = {}; o[k] = v]: a new object with the one property, except
    for the name [__proto__], which is the accessor every object inherits:
    its setter replaces the prototype of [o] when [v] is an object or
    [null], does nothing otherwise, and [o] gets no property of its own. *)
Definition is_object_or_null (v : JSONValue) : bool :=
  match v with
  | JNull | JArray _ | JObject _ | JObjectFrom _ _ => true
  | JBool _ | JNumber _ | JString _ => false
  end.

Definition literal_with (k : string) (v : JSONValue) : JSONValue :=
  if String.eqb k "__proto__" then
    if is_object_or_null v then JObjectFrom v ∅ else JObject ∅
  else JObject {[ k := v ]}.

(** A string, a number or a boolean. *)
Definition is_primitive (v : JSONValue) : bool :=
  match v with
  | JBool _ | JNumber _ | JString _ => true
  | _ => false
  end.

(** The own properties of an object: what [JSON.stringify] prints and what
    a merge over the keys of the object takes. *)
Definition own_properties (o : JSONValue) : JSONObject :=
  match o with
  | JObject m | JObjectFrom _ m => m
  | _ => ∅
  end.

(** A nullable object seen as a value. *)
Definition value_of (d : nullable JSONObject) : JSONValue :=
  match d with
  | null => JNull
  | obj m => JObject m
  end.

(** ** The store of transport settings objects *)

Abbreviation loc := positive.
Abbreviation Store := (gmap loc JSONObject).

(** An object literal: a new object at a location not in use. *)
Definition alloc (o : JSONObject) (σ : Store) : loc * Store :=
  let l := fresh (dom σ) in (l, <[l := o]> σ).

(** [o.k = v] on the object at [l]. *)
Definition assign (l : loc) (k : string) (v : JSONValue) (σ : Store) : Store :=
  <[l := <[k := v]> (σ !!! l)]> σ.

(** ** What the module imports (jupyter-js-utils, and the JSON codec) *)

(** The url helpers of jupyter-js-utils and [JSON.stringify] are used as
    given: the development holds for every choice of them. *)
Class Externals : Type := {
  getBaseUrl : string;
  urlPathJoin : list string → string;
  urlJoinEncode : list string → string;
  JSON_stringify : JSONObject → string
}.

(** Modelled from the spec: [utils.extend] (package jupyter-js-utils) is not
    under src/. The spec (4.1, update) describes its use as a shallow merge
    of [partial] onto the in-memory [data]: keys in [partial] overwrite
    matching keys in [data]. The result is the merged object. A [null]
    target is taken as an object without properties, a case on which the
    spec is silent. *)
Definition extend (target : nullable JSONObject) (source : JSONObject) : JSONObject :=
  match target with
  | null => source
  | obj d => source ∪ d
  end.

(** Modelled from the spec: [utils.copy] (package jupyter-js-utils) is not
    under src/. The spec (4.1, ajaxSettings) asks for a copy, not a shared
    reference, that prevents mutation of internal state through aliasing:
    a new object with the content of the given one. The content of an
    object is a JSON tree, so the two objects share nothing. A location
    that holds no object is read as an object without properties. *)
Definition copy (o : loc) (σ : Store) : loc * Store :=
  alloc (σ !!! o) σ.

(** What [utils.ajaxRequest] resolves with: [success.data] and
    [success.xhr.status]. *)
Record IAjaxSuccess : Type := {
  data : nullable JSONObject;
  xhr_status : N
}.

(** How the transport settles a request. *)
Inductive AjaxOutcome : Type :=
  | AjaxResolved (success : IAjaxSuccess)
  | AjaxRejected (statusText : string).

(** ** ConfigSection *)

Definition SERVICE_CONFIG_URL : string := "api/config".

Record ConfigSection : Type := {
  _url : string;
  _data : nullable JSONObject;
  _ajaxSettings : loc
}.

(** The section and the objects it can reach. [ConfigWithDefaults] holds a
    reference to a section, not a section of its own: every operation below
    runs on the state of that one section. *)
Record World : Type := {
  objects : Store;
  section : ConfigSection
}.

Definition with_objects (σ : Store) (w : World) : World :=
  {| objects := σ; section := section w |}.

Definition with_data (d : nullable JSONObject) (w : World) : World :=
  {| objects := objects w;
     section := {| _url := _url (section w); _data := d;
                   _ajaxSettings := _ajaxSettings (section w) |} |}.

Definition with_ajaxSettings (l : loc) (w : World) : World :=
  {| objects := objects w;
     section := {| _url := _url (section w); _data := _data (section w);
                   _ajaxSettings := l |} |}.

(** A promise obtained as [utils.ajaxRequest(url, settings).then(handler)]. *)
Record Promise (A : Type) : Type := {
  request_url : string;
  request_settings : loc;
  on_success : IAjaxSuccess → World → completion A * World
}.
Arguments request_url {A} _.
Arguments request_settings {A} _.
Arguments on_success {A} _.

Inductive Settled (A : Type) : Type :=
  | Fulfilled (a : A)
  | Rejected (reason : JSError).
Arguments Fulfilled {A} a.
Arguments Rejected {A} reason.

(** The transport settles the request: a rejection skips the handler, and
    a handler that throws rejects the promise. *)
Definition settle {A} (p : Promise A) (o : AjaxOutcome) (w : World) : Settled A * World :=
  match o with
  | AjaxRejected e => (Rejected (AjaxError e), w)
  | AjaxResolved success =>
      match on_success p success w with
      | (Normal a, w') => (Fulfilled a, w')
      | (Throw e, w') => (Rejected e, w')
      end
  end.

Record IOptions : Type := {
  name : string;
  baseUrl : option string;
  ajaxSettings : option loc
}.

(** [get ajaxSettings()] *)
Definition get_ajaxSettings (w : World) : loc * World :=
  let '(l, σ) := copy (_ajaxSettings (section w)) (objects w) in
  (l, with_objects σ w).

(** [set ajaxSettings(value)] *)
Definition set_ajaxSettings (value : loc) (w : World) : World :=
  let '(l, σ) := copy value (objects w) in
  with_ajaxSettings l (with_objects σ w).

Definition invalid_status (status : N) : JSError :=
  Error ("Invalid Status: " +:+ pretty status).

(** The handler [load] gives to [then]. *)
Definition load_then (success : IAjaxSuccess) (w : World) : completion unit * World :=
  if negb (xhr_status success =? 200)%N then
    (Throw (invalid_status (xhr_status success)), w)
  else
    (Normal tt, with_data (data success) w).

(** The handler [update] gives to [then]. *)
Definition update_then (success : IAjaxSuccess) (w : World)
    : completion (nullable JSONObject) * World :=
  if negb (xhr_status success =? 200)%N then
    (Throw (invalid_status (xhr_status success)), w)
  else
    let w := with_data (data success) w in
    (Normal (_data (section w)), w).

Section Config.
Context `{!Externals} {realm : Realm}.

(** [new ConfigSection(options)], in a store [σ]. *)
Definition new_ConfigSection (options : IOptions) (σ : Store) : World :=
  let baseUrl :=
    match baseUrl options with
    | Some b => if nonempty b then b else getBaseUrl
    | None => getBaseUrl
    end in
  let '(value, σ) :=
    match ajaxSettings options with
    | Some l => (l, σ)
    | None => alloc ∅ σ
    end in
  (* the field initialisers; [_ajaxSettings] is [null] in the source until
     the setter runs on the next line, and is not read before *)
  let w :=
    set_ajaxSettings value
      {| objects := σ;
         section := {| _url := "unknown"; _data := null; _ajaxSettings := value |} |} in
  {| objects := objects w;
     section := {| _url := urlPathJoin [baseUrl; SERVICE_CONFIG_URL;
                                        urlJoinEncode [name options]];
                   _data := _data (section w);
                   _ajaxSettings := _ajaxSettings (section w) |} |}.

Definition load (w : World) : Promise unit * World :=
  let '(ajaxSettings, w) := get_ajaxSettings w in
  let w := with_objects (assign ajaxSettings "method" (JString "GET") (objects w)) w in
  let w := with_objects (assign ajaxSettings "dataType" (JString "json") (objects w)) w in
  let w := with_objects (assign ajaxSettings "cache" (JBool false) (objects w)) w in
  ({| request_url := _url (section w); request_settings := ajaxSettings;
      on_success := load_then |}, w).

Definition update (newdata : JSONObject) (w : World)
    : Promise (nullable JSONObject) * World :=
  let w := with_data (obj (extend (_data (section w)) newdata)) w in
  let '(ajaxSettings, w) := get_ajaxSettings w in
  let w := with_objects (assign ajaxSettings "method" (JString "PATCH") (objects w)) w in
  let w := with_objects
             (assign ajaxSettings "data" (JString (JSON_stringify newdata)) (objects w)) w in
  let w := with_objects (assign ajaxSettings "dataType" (JString "json") (objects w)) w in
  let w := with_objects
             (assign ajaxSettings "contentType" (JString "application/json") (objects w)) w in
  ({| request_url := _url (section w); request_settings := ajaxSettings;
      on_success := update_then |}, w).

(** [getConfigSection(options)]: the promise is fulfilled with the section
    once it is loaded. *)
Definition getConfigSection (options : IOptions) (σ : Store)
    : Promise ConfigSection * World :=
  let '(p, w) := load (new_ConfigSection options σ) in
  ({| request_url := request_url p; request_settings := request_settings p;
      on_success := λ success w,
        match on_success p success w with
        | (Normal _, w') => (Normal (section w'), w')
        | (Throw e, w') => (Throw e, w')
        end |}, w).

(** ** ConfigWithDefaults *)

(** [_section] is a reference to the shared section: the operations below
    take the state of that section, and [set] returns its new state. *)
Record ConfigWithDefaults : Type := {
  _defaults : JSONObject;
  _className : string
}.

Record ConfigWithDefaults_IOptions : Type := {
  defaults : option JSONObject;
  className : option string
}.

Definition new_ConfigWithDefaults (options : ConfigWithDefaults_IOptions)
    : ConfigWithDefaults :=
  {| _defaults := default ∅ (defaults options);
     _className := default "" (className options) |}.

Definition _classData (c : ConfigWithDefaults) (s : ConfigSection) : completion JSValue :=
  if nonempty (_className c) then
    v ← get_property (value_of (_data s)) (_className c);
    mret (js_or v (json (JObject ∅)))
  else
    mret (json (value_of (_data s))).

Definition get (c : ConfigWithDefaults) (s : ConfigSection) (key : string)
    : completion JSValue :=
  scoped ← _classData c s;
  v ← get_member scoped key;
  if to_boolean v then mret v else get_property (JObject (_defaults c)) key.

(** [update] is given the object built here; of that object it reads the
    own properties, in [JSON.stringify] and in the merge. *)
Definition set (c : ConfigWithDefaults) (key : string) (value : JSONValue) (w : World)
    : Promise (nullable JSONObject) * World :=
  let d := literal_with key value in
  if nonempty (_className c) then
    let d2 := literal_with (_className c) d in
    update (own_properties d2) w
  else
    update (own_properties d) w.

(** ** Runs: calls and responses in any order *)

(** A request in flight, with the promise that waits for it. *)
Inductive Pending : Type :=
  | PendingLoad (p : Promise unit)
  | PendingUpdate (p : Promise (nullable JSONObject)).

Record Run : Type := {
  world : World;
  pending : list Pending
}.

Inductive event : Type :=
  | CallLoad
  | CallUpdate (newdata : JSONObject)
  | Settle (i : nat) (o : AjaxOutcome).  (* the [i]-th request in flight is answered *)

Definition settle_pending (q : Pending) (o : AjaxOutcome) (w : World) : World :=
  match q with
  | PendingLoad p => (settle p o w).2
  | PendingUpdate p => (settle p o w).2
  end.

Definition step (r : Run) (e : event) : Run :=
  match e with
  | CallLoad =>
      let '(p, w) := load (world r) in
      {| world := w; pending := pending r ++ [PendingLoad p] |}
  | CallUpdate newdata =>
      let '(p, w) := update newdata (world r) in
      {| world := w; pending := pending r ++ [PendingUpdate p] |}
  | Settle i o =>
      match pending r !! i with
      | Some q => {| world := settle_pending q o (world r); pending := delete i (pending r) |}
      | None => r
      end
  end.

Definition run (r : Run) (tr : list event) : Run := fold_left step tr r.

Definition start (w : World) : Run := {| world := w; pending := [] |}.

Definition data_of (r : Run) : nullable JSONObject := _data (section (world r)).

End Config.

(** A response the handlers accept: the transport resolved with status 200. *)
Definition is_success (o : AjaxOutcome) : bool :=
  match o with
  | AjaxResolved success => (xhr_status success =? 200)%N
  | AjaxRejected _ => false
  end.

Definition succeeds (e : event) : bool :=
  match e with
  | Settle _ o => is_success o
  | _ => false
  end.

(** The partials of the updates called in a run, merged in call order. *)
Definition merge_called (d : nullable JSONObject) (tr : list event) : nullable JSONObject :=
  fold_left (λ d e, match e with
                    | CallUpdate newdata => obj (extend d newdata)
                    | _ => d
                    end) tr d.

(** An environment to run the examples in; no theorem depends on its
    choices. Its serializer prints the property names only. *)
Definition join_with (sep : string) (parts : list string) : string :=
  foldr (λ a b, if String.eqb b "" then a else a +:+ sep +:+ b) "" parts.

Definition example_externals : Externals :=
  {| getBaseUrl := "http://localhost:8888";
     urlPathJoin := join_with "/";
     urlJoinEncode := join_with "/";
     JSON_stringify := λ o, "{" +:+ join_with "," (fst <$> map_to_list o) +:+ "}" |}.

(** A realm to run the examples in: every value inherits the members of
    [Object.prototype], a function of the realm raises on [caller], and
    the strings of the examples are ASCII, one code unit a character. *)
Definition object_members : list string :=
  ["constructor"; "hasOwnProperty"; "isPrototypeOf"; "propertyIsEnumerable";
   "toLocaleString"; "toString"; "valueOf"].

Definition example_realm : Realm :=
  {| code_units := λ s, (λ a, String a EmptyString) <$> String.list_ascii_of_string s;
     inherited := λ _ k,
       if String.eqb k "__proto__" then host (host_object "Object.prototype")
       else if bool_decide (k ∈ object_members)
            then host (host_object ("Object.prototype." +:+ k))
            else undefined;
     host_get := λ _ k,
       if String.eqb k "caller" then Throw TypeError else Normal undefined |}.

(** The body of the most recent response with status 200 that answered a
    request in flight during a run ([acc] when there is none). *)
Fixpoint last_success `{!Externals} (r : Run) (tr : list event)
    (acc : option (nullable JSONObject)) : option (nullable JSONObject) :=
  match tr with
  | [] => acc
  | e :: tr' =>
      last_success (step r e) tr'
        (match e with
         | Settle i (AjaxResolved success) =>
             if bool_decide (i < length (pending r)) && (xhr_status success =? 200)%N
             then Some (data success) else acc
         | _ => acc
         end)
  end.

(** Every request in flight waits with the handler its call installed. *)
Definition handler_ok (q : Pending) : Prop :=
  match q with
  | PendingLoad p => on_success p = load_then
  | PendingUpdate p => on_success p = update_then
  end.

Definition pending_ok (r : Run) : Prop := Forall handler_ok (pending r).

(** ** The fixtures of the test suite *)

Definition test_options : IOptions :=
  {| name := "test"; baseUrl := None; ajaxSettings := None |}.

(** [handler.respond(status, body)] *)
Definition respond (status : N) (body : JSONObject) : AjaxOutcome :=
  AjaxResolved {| data := obj body; xhr_status := status |}.

Definition test_section : World :=
  @new_ConfigSection example_externals test_options ∅.

(** A section loaded with [body]. *)
Definition loaded (body : JSONObject) : World :=
  let '(p, w) := load test_section in
  (settle p (respond 200 body) w).2.

Definition foo_bar : JSONObject := {[ "foo" := JString "bar" ]}.
Definition foo_baz : JSONObject := {[ "foo" := JString "baz" ]}.
Definition spam_eggs : JSONObject := {[ "spam" := JString "eggs" ]}.

Definition test_config : ConfigWithDefaults :=
  new_ConfigWithDefaults {| defaults := Some spam_eggs; className := Some "testclass" |}.

Definition plain_config : ConfigWithDefaults :=
  new_ConfigWithDefaults {| defaults := Some spam_eggs; className := None |}.


Definition constructor_config : ConfigWithDefaults :=
  new_ConfigWithDefaults {| defaults := None; className := Some "constructor" |}.

(** ** The lookup of [get], in the words of the specification *)

(** The class-scoped data (4.2): the value at [data[className]] if a class
    name is set, an empty map if that value is absent or falsy, and [data]
    itself without a class name. *)
Definition class_scoped {realm : Realm} (c : ConfigWithDefaults) (d : JSONObject) : JSValue :=
  if nonempty (_className c) then
    let entry := read_object d (_className c) in
    if to_boolean entry then entry else json (JObject ∅)
  else json (JObject d).

(** The payload [set] hands to [update] (4.2). *)
Definition set_payload (c : ConfigWithDefaults) (key : string) (value : JSONValue)
    : JSONObject :=
  if nonempty (_className c) then {[ _className c := JObject {[ key := value ]} ]}
  else {[ key := value ]}.

(** ** Fixtures with transport settings of the caller *)

(** The [ajaxSettings] of test/src/utils.ts stand for any settings object
    of the caller; here one with a timeout. *)
Definition caller_settings : JSONObject := {[ "timeout" := JNumber 10%float ]}.

Definition caller_store : Store := {[ 1%positive := caller_settings ]}.

Definition options_with_settings : IOptions :=
  {| name := "test"; baseUrl := Some ""; ajaxSettings := Some 1%positive |}.

Definition caller_section : World :=
  @new_ConfigSection example_externals options_with_settings caller_store.

(** The settings [load] sends, given the settings of the section. *)
Definition load_settings (o : JSONObject) : JSONObject :=
  <["cache" := JBool false]> (<["dataType" := JString "json"]>
    (<["method" := JString "GET"]> o)).

(** * Properties *)

Section Properties.
Context `{!Externals} {realm : Realm}.

(** ** The synchronous part of [load] and [update] *)

Lemma load_data (w : World) : _data (section (load w).2) = _data (section w).
Proof. reflexivity. Qed.

Lemma load_handler (w : World) : on_success (load w).1 = load_then.
Proof. reflexivity. Qed.

Lemma update_data (newdata : JSONObject) (w : World) :
  _data (section (update newdata w).2) = obj (extend (_data (section w)) newdata).
Proof. reflexivity. Qed.

Lemma update_handler (newdata : JSONObject) (w : World) :
  on_success (update newdata w).1 = update_then.
Proof. reflexivity. Qed.

(** ** The handlers *)

Lemma load_then_200 (success : IAjaxSuccess) (w : World) :
  xhr_status success = 200%N →
  load_then success w = (Normal tt, with_data (data success) w).
Proof. intros E. unfold load_then. by rewrite E. Qed.

Lemma load_then_other (success : IAjaxSuccess) (w : World) :
  xhr_status success ≠ 200%N →
  load_then success w = (Throw (invalid_status (xhr_status success)), w).
Proof.
  intros E. unfold load_then.
  by destruct (N.eqb_spec (xhr_status success) 200).
Qed.

Lemma update_then_200 (success : IAjaxSuccess) (w : World) :
  xhr_status success = 200%N →
  update_then success w = (Normal (data success), with_data (data success) w).
Proof. intros E. unfold update_then. by rewrite E. Qed.

Lemma update_then_other (success : IAjaxSuccess) (w : World) :
  xhr_status success ≠ 200%N →
  update_then success w = (Throw (invalid_status (xhr_status success)), w).
Proof.
  intros E. unfold update_then.
  by destruct (N.eqb_spec (xhr_status success) 200).
Qed.

Lemma is_success_200 (success : IAjaxSuccess) :
  is_success (AjaxResolved success) = true ↔ xhr_status success = 200%N.
Proof. simpl. apply N.eqb_eq. Qed.

(** A response that is not a success leaves the whole world as it is. *)
Lemma settle_pending_failure (q : Pending) (o : AjaxOutcome) (w : World) :
  handler_ok q → is_success o = false → settle_pending q o w = w.
Proof.
  intros Hq Ho. destruct o as [success|e]; [|by destruct q].
  assert (xhr_status success ≠ 200%N) as Hne.
  { intros E. apply is_success_200 in E. congruence. }
  destruct q as [p|p]; simpl in *; rewrite Hq.
  - by rewrite load_then_other.
  - by rewrite update_then_other.
Qed.

Lemma settle_pending_success (q : Pending) (success : IAjaxSuccess) (w : World) :
  handler_ok q → xhr_status success = 200%N →
  settle_pending q (AjaxResolved success) w = with_data (data success) w.
Proof.
  intros Hq E. destruct q as [p|p]; simpl in *; rewrite Hq.
  - by rewrite load_then_200.
  - by rewrite update_then_200.
Qed.

(** ** Runs *)

Lemma run_app (r : Run) (tr1 tr2 : list event) :
  run r (tr1 ++ tr2) = run (run r tr1) tr2.
Proof. apply fold_left_app. Qed.

Lemma run_cons (r : Run) (e : event) (tr : list event) :
  run r (e :: tr) = run (step r e) tr.
Proof. reflexivity. Qed.

Lemma pending_ok_start (w : World) : pending_ok (start w).
Proof. constructor. Qed.

Lemma pending_ok_step (r : Run) (e : event) : pending_ok r → pending_ok (step r e).
Proof.
  unfold pending_ok. intros Hr. destruct e as [|newdata|i o]; simpl.
  - apply Forall_app_2; [done|]. by repeat constructor.
  - apply Forall_app_2; [done|]. by repeat constructor.
  - destruct (pending r !! i) eqn:Hi; [|done]. by apply Forall_delete.
Qed.

Lemma pending_ok_run (tr : list event) (r : Run) : pending_ok r → pending_ok (run r tr).
Proof.
  revert r. induction tr as [|e tr IH]; intros r Hr; [done|].
  apply IH. by apply pending_ok_step.
Qed.

Lemma data_step_failure (r : Run) (i : nat) (o : AjaxOutcome) :
  pending_ok r → is_success o = false → data_of (step r (Settle i o)) = data_of r.
Proof.
  intros Hr Ho. unfold data_of. simpl.
  destruct (pending r !! i) as [q|] eqn:Hi; [|done]. simpl.
  rewrite settle_pending_failure; [done| |done].
  eapply Forall_lookup_1; eauto.
Qed.

Lemma data_step_success (r : Run) (i : nat) (success : IAjaxSuccess) :
  pending_ok r → i < length (pending r) → xhr_status success = 200%N →
  data_of (step r (Settle i (AjaxResolved success))) = data success.
Proof.
  intros Hr Hi E. unfold data_of. simpl.
  destruct (lookup_lt_is_Some_2 _ _ Hi) as [q Hq]. rewrite Hq. simpl.
  rewrite settle_pending_success; [done| |done].
  eapply Forall_lookup_1; eauto.
Qed.

Lemma data_run_merge (tr : list event) (r : Run) :
  pending_ok r → Forall (λ e, succeeds e = false) tr →
  data_of (run r tr) = merge_called (data_of r) tr.
Proof.
  revert r. induction tr as [|e tr IH]; intros r Hr Htr; [done|].
  apply Forall_cons in Htr as [He Htr]. rewrite run_cons.
  rewrite IH; [|by apply pending_ok_step|done]. simpl. f_equal.
  destruct e as [|newdata|i o]; [done|done|]. by apply data_step_failure.
Qed.

(** ** ConfigSection: data, load and update *)

(** C1 (as amended): after any calls and responses, [data] is the body of
    the most recent status-200 response with the partials of the updates
    called since then merged on top, in call order; it is that body itself
    when no update was called since; and a response that is not a success
    (another status, or a rejection by the transport) changes nothing in
    [data]. *)
Theorem data_after_last_success (w : World) (pre post : list event) (i : nat)
    (success : IAjaxSuccess) :
  i < length (pending (run (start w) pre)) →
  xhr_status success = 200%N →
  Forall (λ e, succeeds e = false) post →
  let r := run (start w) (pre ++ Settle i (AjaxResolved success) :: post) in
  data_of r = merge_called (data success) post ∧
  (Forall (λ e, ∀ newdata, e ≠ CallUpdate newdata) post → data_of r = data success) ∧
  (∀ j o, is_success o = false → data_of (step r (Settle j o)) = data_of r).
Proof.
  intros Hi E Hpost r.
  assert (pending_ok (run (start w) pre)) as Hpre
    by apply pending_ok_run, pending_ok_start.
  assert (data_of r = merge_called (data success) post) as Hr.
  { unfold r. rewrite run_app, run_cons.
    rewrite data_run_merge; [|by apply pending_ok_step|done].
    by rewrite data_step_success. }
  split; [done|]. split.
  - intros Hno. rewrite Hr. clear -Hno.
    generalize (data success). induction post as [|e post IH]; intros d; [done|].
    apply Forall_cons in Hno as [He Hno]. simpl.
    destruct e as [|newdata|j o]; try by apply IH.
    by destruct (He newdata).
  - intros j o Ho. apply data_step_failure; [|done].
    apply pending_ok_run, pending_ok_start.
Qed.

(** C2: an update answered with a status other than 200 is rejected, and
    [data] keeps the merge made before the request: it is not rolled back. *)
Theorem update_failure_keeps_merge (w : World) (partial : JSONObject)
    (success : IAjaxSuccess) :
  xhr_status success ≠ 200%N →
  let p := (update partial w).1 in
  let w1 := (update partial w).2 in
  let result := settle p (AjaxResolved success) w1 in
  result.1 = Rejected (invalid_status (xhr_status success)) ∧
  _data (section w1) = obj (extend (_data (section w)) partial) ∧
  _data (section result.2) = obj (extend (_data (section w)) partial) ∧
  (∀ d, _data (section w) = obj d → _data (section result.2) = obj (partial ∪ d)).
Proof.
  intros Hne p w1 result.
  assert (result = (Rejected (invalid_status (xhr_status success)), w1)) as ->.
  { unfold result, settle, p. rewrite update_handler.
    by rewrite update_then_other. }
  repeat split; try done.
  intros d Hd. change (_data (section (update partial w).2) = obj (partial ∪ d)).
  by rewrite update_data, Hd.
Qed.

(** C3: on [load], [update] and [getConfigSection], a response with status
    200 fulfils the promise, and a response with any other status rejects
    it with an error whose message is ["Invalid Status: "] followed by the
    status in decimal. *)
Theorem invalid_status_rejection (w w' : World) (newdata : JSONObject)
    (options : IOptions) (σ : Store) (success : IAjaxSuccess) :
  let status := xhr_status success in
  let o := AjaxResolved success in
  (settle (load w).1 o w').1 =
    (if decide (status = 200%N) then Fulfilled tt
     else Rejected (Error ("Invalid Status: " +:+ pretty status))) ∧
  (settle (update newdata w).1 o w').1 =
    (if decide (status = 200%N) then Fulfilled (data success)
     else Rejected (Error ("Invalid Status: " +:+ pretty status))) ∧
  (settle (getConfigSection options σ).1 o w').1 =
    (if decide (status = 200%N) then Fulfilled (section (with_data (data success) w'))
     else Rejected (Error ("Invalid Status: " +:+ pretty status))).
Proof.
  intros status o. unfold o, settle, getConfigSection. simpl.
  destruct (decide (status = 200%N)) as [E|Hne].
  - by rewrite load_then_200, update_then_200.
  - by rewrite load_then_other, update_then_other.
Qed.

(** C4: [update(p)] on a section with data [d] replaces [data], in its
    synchronous part and whatever the state, by the shallow merge of [p]
    onto [d]: a key of [p] has its value in [p], any other key its value
    in [d]. *)
Theorem update_merges_synchronously (w : World) (d p : JSONObject) :
  _data (section w) = obj d →
  _data (section (update p w).2) = obj (p ∪ d) ∧
  (∀ k v, p !! k = Some v → (p ∪ d) !! k = Some v) ∧
  (∀ k, p !! k = None → (p ∪ d) !! k = d !! k).
Proof.
  intros Hd. split; [by rewrite update_data, Hd|]. split.
  - intros k v Hk. by apply lookup_union_Some_l.
  - intros k Hk. by apply lookup_union_r.
Qed.

(** C5: the PATCH request of [update(partial)] carries the serialization of
    [partial] alone, whatever [data] is; on a response with status 200,
    [data] becomes the response body and the promise is fulfilled with
    that same body. *)
Theorem update_request_and_response (w w' : World) (partial : JSONObject)
    (success : IAjaxSuccess) :
  xhr_status success = 200%N →
  let p := (update partial w).1 in
  let w1 := (update partial w).2 in
  let settings := objects w1 !!! request_settings p in
  settings !! "method" = Some (JString "PATCH") ∧
  settings !! "data" = Some (JString (JSON_stringify partial)) ∧
  settings !! "contentType" = Some (JString "application/json") ∧
  request_url p = _url (section w) ∧
  (settle p (AjaxResolved success) w').1 = Fulfilled (data success) ∧
  _data (section (settle p (AjaxResolved success) w').2) = data success.
Proof.
  intros E p w1 settings.
  assert (settings = <["contentType" := JString "application/json"]>
      (<["dataType" := JString "json"]>
         (<["data" := JString (JSON_stringify partial)]>
            (<["method" := JString "PATCH"]>
               (objects w !!! _ajaxSettings (section w)))))) as ->.
  { unfold settings, w1, p, update, get_ajaxSettings, copy, alloc, assign.
    simpl. by rewrite !lookup_total_insert_eq. }
  repeat split; try by simplify_map_eq.
  - unfold settle, p. rewrite update_handler. by rewrite update_then_200.
  - unfold settle, p. rewrite update_handler. by rewrite update_then_200.
Qed.

(** ** ConfigWithDefaults *)

Lemma get_property_object (m : JSONObject) (k : string) :
  get_property (JObject m) k = Normal (read_object m k).
Proof. unfold get_property, read_object. simpl. by destruct (m !! k). Qed.

Lemma get_property_truthy (v : JSONValue) (k : string) :
  truthy v = true → ∃ x, get_property v k = Normal x.
Proof. destruct v; simpl; try done; eauto. Qed.

Lemma _classData_loaded (c : ConfigWithDefaults) (s : ConfigSection) (d : JSONObject) :
  _data s = obj d → _classData c s = Normal (class_scoped c d).
Proof.
  intros Hd. unfold _classData, class_scoped. rewrite Hd.
  destruct (nonempty (_className c)); [|done].
  change (value_of (obj d)) with (JObject d). by rewrite get_property_object.
Qed.

Lemma bind_normal {A B : Type} (a : A) (f : A → completion B) :
  (Normal a ≫= f) = f a.
Proof. reflexivity. Qed.

Lemma get_loaded (c : ConfigWithDefaults) (s : ConfigSection) (d : JSONObject)
    (key : string) :
  _data s = obj d →
  get c s key
  = v ← get_member (class_scoped c d) key;
    mret (if to_boolean v then v else read_object (_defaults c) key).
Proof.
  intros Hd. unfold get. rewrite (_classData_loaded c s d Hd), bind_normal.
  destruct (get_member (class_scoped c d) key) as [v|e]; [|done].
  rewrite !bind_normal.
  destruct (to_boolean v); [done|]. by rewrite get_property_object.
Qed.

(** Data read as the class-scoped value is never [null]: reading it does
    not raise. *)
Lemma get_member_data (x : JSONValue) (k : string) :
  truthy x = true → ∃ v, get_member (json x) k = Normal v.
Proof. apply get_property_truthy. Qed.

Lemma set_payload_own (c : ConfigWithDefaults) (key : string) (value : JSONValue) :
  key ≠ "__proto__" → _className c ≠ "__proto__" →
  (if nonempty (_className c)
   then own_properties (literal_with (_className c) (literal_with key value))
   else own_properties (literal_with key value))
  = set_payload c key value.
Proof.
  intros Hk Hc. unfold literal_with, set_payload.
  apply String.eqb_neq in Hk. apply String.eqb_neq in Hc. rewrite Hk, Hc.
  by destruct (nonempty (_className c)).
Qed.

Lemma set_update (c : ConfigWithDefaults) (key : string) (value : JSONValue) (w : World) :
  key ≠ "__proto__" → _className c ≠ "__proto__" →
  set c key value w = update (set_payload c key value) w.
Proof.
  intros Hk Hc. rewrite <- (set_payload_own c key value Hk Hc).
  unfold set. by destruct (nonempty (_className c)).
Qed.



(** C8 (as amended): while the data of the wrapped section is still [null],
    every [get(key)] raises a [TypeError], with or without a class name. *)
Theorem get_raises_before_load (c : ConfigWithDefaults) (s : ConfigSection)
    (key : string) :
  _data s = null → get c s key = Throw TypeError.
Proof.
  intros Hd. unfold get, _classData. rewrite Hd.
  by destruct (nonempty (_className c)).
Qed.


(** ** The transport settings *)

Lemma fresh_ne (σ : Store) (l : loc) : l ∈ dom σ → fresh (dom σ) ≠ l.
Proof. intros Hl E. apply (is_fresh (dom σ)). by rewrite E. Qed.

Lemma lookup_allocated (σ : Store) (l : loc) : l ∈ dom σ → σ !! l = Some (σ !!! l).
Proof.
  intros [o Ho]%elem_of_dom. by rewrite (lookup_total_correct _ _ _ Ho).
Qed.

(** C9: reading [ajaxSettings] gives a new object with the content of the
    internal settings, and writing it stores a new object with the content
    of the value given: whatever is done afterwards to the object read, or
    to the object that was written, the internal settings keep their
    content. *)
Theorem ajaxSettings_copied (w : World) (value : loc) :
  _ajaxSettings (section w) ∈ dom (objects w) →
  value ∈ dom (objects w) →
  let internal := _ajaxSettings (section w) in
  let got := (get_ajaxSettings w).1 in
  let w1 := (get_ajaxSettings w).2 in
  let w2 := set_ajaxSettings value w in
  (section w1 = section w ∧
   got ≠ internal ∧
   objects w1 !! got = objects w !! internal ∧
   (∀ k v, assign got k v (objects w1) !! internal = objects w !! internal) ∧
   (∀ σ' : Store, (∀ l, l ≠ got → σ' !! l = objects w1 !! l) →
          σ' !! internal = objects w !! internal)) ∧
  (_ajaxSettings (section w2) ≠ value ∧
   objects w2 !! _ajaxSettings (section w2) = objects w !! value ∧
   (∀ k v, assign value k v (objects w2) !! _ajaxSettings (section w2)
           = objects w !! value) ∧
   (∀ σ' : Store, (∀ l, l ≠ value → σ' !! l = objects w2 !! l) →
          σ' !! _ajaxSettings (section w2) = objects w !! value)).
Proof.
  intros Hint Hval internal got w1 w2.
  pose proof (fresh_ne _ _ Hint) as Hgot.
  pose proof (fresh_ne _ _ Hval) as Hnew.
  assert (∀ l, l ∈ dom (objects w) →
            <[fresh (dom (objects w)) := objects w !!! l]> (objects w)
              !! fresh (dom (objects w)) = objects w !! l) as Hcopy.
  { intros l Hl. by rewrite lookup_insert_eq, lookup_allocated. }
  assert (∀ l o, l ∈ dom (objects w) →
            <[fresh (dom (objects w)) := o]> (objects w) !! l = objects w !! l) as Hold.
  { intros l o Hl. apply lookup_insert_ne. by apply fresh_ne. }
  split.
  - split; [done|]. split; [done|]. split; [by apply Hcopy|]. split.
    + intros k v. unfold assign. rewrite lookup_insert_ne by done. by apply Hold.
    + intros σ' Hσ'. rewrite Hσ'; [|by apply not_eq_sym]. by apply Hold.
  - split; [done|]. split; [by apply Hcopy|]. split.
    + intros k v. unfold assign. rewrite lookup_insert_ne by by apply not_eq_sym.
      by apply Hcopy.
    + intros σ' Hσ'. rewrite Hσ' by done. by apply Hcopy.
Qed.

End Properties.

(** ** The code's own use of the getter *)

Section Settings.
Context `{!Externals}.

(** A section just built holds settings of its own. *)
Lemma new_ConfigSection_allocated (options : IOptions) (σ : Store) :
  (∀ l, ajaxSettings options = Some l → l ∈ dom σ) →
  let w := new_ConfigSection options σ in
  _ajaxSettings (section w) ∈ dom (objects w) ∧
  (∀ l, ajaxSettings options = Some l →
        _ajaxSettings (section w) ≠ l ∧
        objects w !! _ajaxSettings (section w) = σ !! l).
Proof.
  intros Hopt. unfold new_ConfigSection, set_ajaxSettings, copy, alloc.
  destruct (ajaxSettings options) as [l|]; simpl.
  - split; [apply elem_of_dom; rewrite lookup_insert_eq; eauto|].
    intros ? [= <-]. pose proof (Hopt l eq_refl) as Hl. split.
    + by apply fresh_ne.
    + by rewrite lookup_insert_eq, lookup_allocated.
  - split; [apply elem_of_dom; rewrite lookup_insert_eq; eauto|]. by intros.
Qed.

(** [load] and [update] write the request into the copy they read: the
    settings of the section are the same object, with the same content,
    after the call. *)
Lemma load_keeps_settings (w : World) :
  _ajaxSettings (section w) ∈ dom (objects w) →
  _ajaxSettings (section (load w).2) = _ajaxSettings (section w) ∧
  objects (load w).2 !! _ajaxSettings (section w)
  = objects w !! _ajaxSettings (section w).
Proof.
  intros Hint. split; [done|].
  pose proof (fresh_ne _ _ Hint) as Hne.
  unfold load, get_ajaxSettings, copy, alloc, assign. simpl.
  by rewrite !lookup_insert_ne.
Qed.

Lemma update_keeps_settings (newdata : JSONObject) (w : World) :
  _ajaxSettings (section w) ∈ dom (objects w) →
  _ajaxSettings (section (update newdata w).2) = _ajaxSettings (section w) ∧
  objects (update newdata w).2 !! _ajaxSettings (section w)
  = objects w !! _ajaxSettings (section w).
Proof.
  intros Hint. split; [done|].
  pose proof (fresh_ne _ _ Hint) as Hne.
  unfold update, get_ajaxSettings, copy, alloc, assign. simpl.
  by rewrite !lookup_insert_ne.
Qed.

End Settings.

(** ** The test suite, run on the model *)

Example test_load_a_config :
  _data (section (loaded foo_bar)) = obj foo_bar ∧ foo_bar !! "foo" = Some (JString "bar").
Proof. split; reflexivity. Qed.

Example test_getConfigSection_incorrect_response :
  let '(p, w) := @getConfigSection example_externals test_options ∅ in
  (settle p (respond 201 ∅) w).1 = Rejected (Error "Invalid Status: 201").
Proof. vm_compute. reflexivity. Qed.

Example test_update_a_config :
  let partial : JSONObject := {[ "foo" := JString "baz"; "spam" := JString "eggs" ]} in
  let '(p, w) := @update example_externals partial (loaded ∅) in
  ∃ echoed, _data (section w) = obj echoed ∧
    (settle p (respond 200 echoed) w).1 = Fulfilled (obj partial) ∧
    _data (section (settle p (respond 200 echoed) w).2) = obj partial.
Proof. vm_compute. eexists. split; [reflexivity|]. split; reflexivity. Qed.

Example test_get_a_default_config_value :
  get (realm:=example_realm) test_config
    (section (loaded {[ "testclass" := JObject foo_bar ]})) "spam"
  = Normal (json (JString "eggs")) ∧
  get (realm:=example_realm) test_config
    (section (loaded {[ "testclass" := JObject foo_bar ]})) "foo"
  = Normal (json (JString "bar")) ∧
  get (realm:=example_realm) test_config (section (loaded foo_bar)) "spam"
  = Normal (json (JString "eggs")).
Proof. vm_compute. repeat split. Qed.

Example test_set_a_value_in_a_class_immediately :
  let config := new_ConfigWithDefaults {| defaults := None; className := Some "testclass" |} in
  let w := (@set example_externals config "foo" (JString "bar") (loaded ∅)).2 in
  (scoped ← get_property (realm:=example_realm) (value_of (_data (section w))) "testclass";
   get_member (realm:=example_realm) scoped "foo") = Normal (json (JString "bar")).
Proof. vm_compute. reflexivity. Qed.

Example test_falsy_values_fall_back :
  let d : JSONObject := {[ "zero" := JNumber 0%float; "empty" := JString "";
                           "no" := JBool false; "one" := JNumber 1%float ]} in
  let config := new_ConfigWithDefaults
                  {| defaults := Some {[ "zero" := JNumber 7%float; "empty" := JString "x";
                                         "no" := JBool true; "one" := JNumber 2%float ]};
                     className := None |} in
  get (realm:=example_realm) config (section (loaded d)) "zero" = Normal (json (JNumber 7%float)) ∧
  get (realm:=example_realm) config (section (loaded d)) "empty" = Normal (json (JString "x")) ∧
  get (realm:=example_realm) config (section (loaded d)) "no" = Normal (json (JBool true)) ∧
  get (realm:=example_realm) config (section (loaded d)) "one" = Normal (json (JNumber 1%float)).
Proof. vm_compute. repeat split. Qed.

(** What a read finds that is not in the data: a member every object
    inherits, and a property of a function reached through one, which can
    raise on a loaded section. *)
Example inherited_members_are_read :
  get (realm:=example_realm) plain_config (section (loaded foo_bar)) "toString"
  = Normal (host (host_object "Object.prototype.toString")) ∧
  get (realm:=example_realm) constructor_config (section (loaded foo_bar)) "caller"
  = Throw TypeError ∧
  get_property (realm:=example_realm) (JString "bar") "length" = Normal (json (JNumber 3%float)) ∧
  get_property (realm:=example_realm) (JArray [JNull; JBool true]) "1"
  = Normal (json (JBool true)).
Proof. vm_compute. repeat split. Qed.

(** The [__proto__] setter at work: the value becomes the prototype of the
    object stored under the class name, and is read through it. *)
Example set_proto_key_under_a_class :
  let w := (@set example_externals test_config "__proto__" (JObject foo_bar) (loaded ∅)).2 in
  _data (section w) = obj {[ "testclass" := JObjectFrom (JObject foo_bar) ∅ ]} ∧
  get (realm:=example_realm) test_config (section w) "foo" = Normal (json (JString "bar")) ∧
  get (realm:=example_realm) test_config (section w) "__proto__" = Normal (json (JObject foo_bar)).
Proof. vm_compute. repeat split. Qed.

(** ** The properties at concrete inputs *)

(** The run of the test "update should fail for an incorrect response". *)
Lemma data_differs_from_last_success :
  last_success (H:=example_externals) (start test_section)
    [CallLoad; Settle 0 (respond 200 ∅); CallUpdate foo_baz; Settle 0 (respond 201 ∅)]
    None = Some (obj ∅) ∧
  data_of (run (H:=example_externals) (start test_section)
    [CallLoad; Settle 0 (respond 200 ∅); CallUpdate foo_baz; Settle 0 (respond 201 ∅)])
  = obj foo_baz ∧
  (obj foo_baz : nullable JSONObject) ≠ obj ∅.
Proof.
  split; [vm_compute; reflexivity|]. split; [vm_compute; reflexivity|].
  intros Heq.
  assert (foo_baz !! "foo" = (∅ : JSONObject) !! "foo") as Hfoo by congruence.
  vm_compute in Hfoo. discriminate.
Qed.

Lemma data_after_last_success_witness :
  data_of (run (H:=example_externals) (start test_section)
    ([CallLoad] ++ Settle 0 (respond 200 foo_bar)
       :: [CallUpdate spam_eggs; Settle 0 (respond 201 ∅)]))
  = merge_called (obj foo_bar) [CallUpdate spam_eggs; Settle 0 (respond 201 ∅)].
Proof.
  refine (proj1 (data_after_last_success (H:=example_externals) test_section
    [CallLoad] [CallUpdate spam_eggs; Settle 0 (respond 201 ∅)] 0
    {| data := obj foo_bar; xhr_status := 200 |} _ _ _)).
  - vm_compute. lia.
  - reflexivity.
  - repeat constructor.
Defined.

Lemma update_failure_keeps_merge_witness :
  _data (section (settle (update (H:=example_externals) foo_baz (loaded spam_eggs)).1
                    (respond 201 ∅)
                    (update (H:=example_externals) foo_baz (loaded spam_eggs)).2).2)
  = obj (foo_baz ∪ spam_eggs).
Proof.
  refine (proj2 (proj2 (proj2 (update_failure_keeps_merge (H:=example_externals)
    (loaded spam_eggs) foo_baz {| data := obj ∅; xhr_status := 201 |} _))) spam_eggs _).
  - vm_compute. discriminate.
  - reflexivity.
Defined.

Lemma update_merges_synchronously_witness :
  _data (section (update (H:=example_externals) foo_baz (loaded foo_bar)).2)
  = obj (foo_baz ∪ foo_bar).
Proof.
  refine (proj1 (update_merges_synchronously (H:=example_externals)
    (loaded foo_bar) foo_bar foo_baz _)).
  reflexivity.
Defined.

Lemma update_request_and_response_witness :
  (objects (update (H:=example_externals) foo_baz (loaded foo_bar)).2
     !!! request_settings (update (H:=example_externals) foo_baz (loaded foo_bar)).1)
    !! "data" = Some (JString (@JSON_stringify example_externals foo_baz)).
Proof.
  refine (proj1 (proj2 (update_request_and_response (H:=example_externals)
    (loaded foo_bar) (loaded foo_bar) foo_baz
    {| data := obj foo_baz; xhr_status := 200 |} _))).
  reflexivity.
Defined.




(** A section that is built and not loaded, read with a class name and
    without one. *)
Lemma get_before_load_is_an_error :
  _data (section test_section) = null ∧
  _defaults test_config !! "spam" = Some (JString "eggs") ∧
  get (realm:=example_realm) test_config (section test_section) "spam" = Throw TypeError ∧
  get (realm:=example_realm) plain_config (section test_section) "spam" = Throw TypeError.
Proof. vm_compute. repeat split. Qed.

Lemma get_raises_before_load_witness :
  get (realm:=example_realm) plain_config (section test_section) "foo" = Throw TypeError.
Proof.
  refine (get_raises_before_load (realm:=example_realm) plain_config
    (section test_section) "foo" _).
  reflexivity.
Defined.


Lemma ajaxSettings_copied_witness :
  assign (get_ajaxSettings test_section).1 "method" (JString "GET")
    (objects (get_ajaxSettings test_section).2) !! _ajaxSettings (section test_section)
  = objects test_section !! _ajaxSettings (section test_section).
Proof.
  refine (proj1 (proj2 (proj2 (proj2 (proj1
    (ajaxSettings_copied test_section 1%positive _ _))))) "method" (JString "GET")).
  - apply elem_of_dom. vm_compute. eauto.
  - apply elem_of_dom. vm_compute. eauto.
Defined.


(** * More of the module *)

Section Coverage.
Context `{!Externals} {realm : Realm}.

(** ** The requests *)

(** X1: the request of [load] goes to the url of the section with the
    settings of the section, on which [method], [dataType] and [cache] are
    set to [GET], [json] and [false]; every other setting is sent as the
    section holds it. *)
Theorem load_request (w : World) :
  let p := (load w).1 in
  let settings := objects (load w).2 !!! request_settings p in
  request_url p = _url (section w) ∧
  settings = load_settings (objects w !!! _ajaxSettings (section w)) ∧
  settings !! "method" = Some (JString "GET") ∧
  settings !! "dataType" = Some (JString "json") ∧
  settings !! "cache" = Some (JBool false) ∧
  (∀ k, k ≠ "method" → k ≠ "dataType" → k ≠ "cache" →
        settings !! k = (objects w !!! _ajaxSettings (section w)) !! k).
Proof.
  intros p settings.
  assert (settings = load_settings (objects w !!! _ajaxSettings (section w))) as ->.
  { unfold settings, p, load, get_ajaxSettings, copy, alloc, assign, load_settings.
    simpl. by rewrite !lookup_total_insert_eq. }
  unfold load_settings. repeat split; try by simplify_map_eq.
  intros k Hm Hd Hc. by rewrite !lookup_insert_ne.
Qed.

(** X2: the request of [update] sets [method], [data], [dataType] and
    [contentType]; every other setting is sent as the section holds it,
    and the request goes to the url of the section. *)
Theorem update_request_other_settings (newdata : JSONObject) (w : World) (k : string) :
  k ≠ "method" → k ≠ "data" → k ≠ "dataType" → k ≠ "contentType" →
  let p := (update newdata w).1 in
  let settings := objects (update newdata w).2 !!! request_settings p in
  settings !! k = (objects w !!! _ajaxSettings (section w)) !! k ∧
  settings !! "dataType" = Some (JString "json") ∧
  request_url p = _url (section w).
Proof.
  intros Hm Hd Ht Hc p settings.
  assert (settings = <["contentType" := JString "application/json"]>
      (<["dataType" := JString "json"]>
         (<["data" := JString (JSON_stringify newdata)]>
            (<["method" := JString "PATCH"]>
               (objects w !!! _ajaxSettings (section w)))))) as ->.
  { unfold settings, p, update, get_ajaxSettings, copy, alloc, assign.
    simpl. by rewrite !lookup_total_insert_eq. }
  repeat split; by simplify_map_eq.
Qed.

(** ** What calls and responses leave alone *)

Lemma lookup_Some_dom (σ : Store) (l : loc) (o : JSONObject) :
  σ !! l = Some o → l ∈ dom σ.
Proof. intros Hl. apply elem_of_dom. eauto. Qed.

Lemma load_lookup (w : World) (l : loc) (o : JSONObject) :
  objects w !! l = Some o → objects (load w).2 !! l = Some o.
Proof.
  intros Hl. pose proof (fresh_ne _ _ (lookup_Some_dom _ _ _ Hl)) as Hne.
  unfold load, get_ajaxSettings, copy, alloc, assign. simpl.
  by rewrite !lookup_insert_ne.
Qed.

Lemma update_lookup (newdata : JSONObject) (w : World) (l : loc) (o : JSONObject) :
  objects w !! l = Some o → objects (update newdata w).2 !! l = Some o.
Proof.
  intros Hl. pose proof (fresh_ne _ _ (lookup_Some_dom _ _ _ Hl)) as Hne.
  unfold update, get_ajaxSettings, copy, alloc, assign. simpl.
  by rewrite !lookup_insert_ne.
Qed.

(** A response changes [_data] at most. *)
Lemma settle_pending_frame (q : Pending) (o : AjaxOutcome) (w : World) :
  handler_ok q →
  objects (settle_pending q o w) = objects w ∧
  _url (section (settle_pending q o w)) = _url (section w) ∧
  _ajaxSettings (section (settle_pending q o w)) = _ajaxSettings (section w).
Proof.
  intros Hq. destruct (is_success o) eqn:Ho.
  - destruct o as [success|e]; [|done]. apply is_success_200 in Ho.
    by rewrite settle_pending_success.
  - by rewrite settle_pending_failure.
Qed.

Lemma step_frame (r : Run) (e : event) (l : loc) (o : JSONObject) :
  pending_ok r → objects (world r) !! l = Some o →
  objects (world (step r e)) !! l = Some o ∧
  _url (section (world (step r e))) = _url (section (world r)) ∧
  _ajaxSettings (section (world (step r e))) = _ajaxSettings (section (world r)).
Proof.
  intros Hr Hl. destruct e as [|newdata|i out].
  - split; [|done]. by apply load_lookup.
  - split; [|done]. by apply update_lookup.
  - simpl. destruct (pending r !! i) as [q|] eqn:Hi; [|done]. simpl.
    destruct (settle_pending_frame q out (world r)) as (-> & -> & ->); [|done].
    eapply Forall_lookup_1; eauto.
Qed.

Lemma run_frame (tr : list event) (r : Run) (l : loc) (o : JSONObject) :
  pending_ok r → objects (world r) !! l = Some o →
  objects (world (run r tr)) !! l = Some o ∧
  _url (section (world (run r tr))) = _url (section (world r)) ∧
  _ajaxSettings (section (world (run r tr))) = _ajaxSettings (section (world r)).
Proof.
  revert r. induction tr as [|e tr IH]; intros r Hr Hl; [done|].
  rewrite run_cons.
  destruct (step_frame r e l o Hr Hl) as (Hl' & <- & <-).
  apply IH; [by apply pending_ok_step|done].
Qed.

(** X3: no call and no response changes a settings object that exists:
    after any run, an object of the store of transport settings (the
    settings of the section, the settings object of the caller) has the
    content it had, and the section has the url and the settings object it
    had. The data object is not in that store and is not spoken of. *)
Theorem run_preserves_objects (w : World) (tr : list event) (l : loc) (o : JSONObject) :
  objects w !! l = Some o →
  let r := run (start w) tr in
  objects (world r) !! l = Some o ∧
  _url (section (world r)) = _url (section w) ∧
  _ajaxSettings (section (world r)) = _ajaxSettings (section w).
Proof.
  intros Hl r. apply (run_frame tr (start w) l o); [apply pending_ok_start|done].
Qed.

(** X4: the settings of a request in flight are its own: whatever is
    called or answered after [update(newdata)], the object given to the
    transport for it still holds [PATCH] and the serialization of
    [newdata]. *)
Theorem request_in_flight_intact (w : World) (newdata : JSONObject) (tr : list event) :
  let p := (update newdata w).1 in
  let r := run (start w) (CallUpdate newdata :: tr) in
  (objects (world r) !!! request_settings p) !! "method" = Some (JString "PATCH") ∧
  (objects (world r) !!! request_settings p) !! "data"
  = Some (JString (JSON_stringify newdata)).
Proof.
  intros p r.
  assert (∃ o, objects (update newdata w).2 !! request_settings p = Some o ∧
               o !! "method" = Some (JString "PATCH") ∧
               o !! "data" = Some (JString (JSON_stringify newdata)))
    as (o & Ho & Hm & Hd).
  { unfold p, update, get_ajaxSettings, copy, alloc, assign. simpl.
    rewrite !lookup_total_insert_eq. eexists. split; [apply lookup_insert_eq|].
    split; by simplify_map_eq. }
  destruct (run_frame tr (step (start w) (CallUpdate newdata)) (request_settings p) o)
    as (Hl & _); [by apply pending_ok_step, pending_ok_start|done|].
  unfold r. rewrite run_cons. by rewrite (lookup_total_correct _ _ _ Hl).
Qed.

(** ** The constructor and [getConfigSection] *)

(** Without a class name, or with one that is a key of the data, the
    class-scoped value is data, and is not [null]. *)
Lemma class_scoped_data (c : ConfigWithDefaults) (d : JSONObject) :
  _className c = "" ∨ is_Some (d !! _className c) →
  ∃ x, class_scoped c d = json x ∧ truthy x = true.
Proof.
  intros Hc. unfold class_scoped.
  destruct (nonempty (_className c)) eqn:Hn.
  - destruct Hc as [Hc|[x Hx]]; [by rewrite Hc in Hn|].
    unfold read_object. rewrite Hx. simpl.
    destruct (truthy x) eqn:Ht; eauto.
  - eauto.
Qed.

(** X5: a section just built is not loaded ([data] is [null]); its
    settings are a new object, with the content of the settings given in
    the options or empty without them; the objects of the caller are left
    as they were; and the url is made from [options.baseUrl], or from
    [getBaseUrl()] when that is missing or empty. *)
Theorem new_ConfigSection_state (options : IOptions) (σ : Store) :
  let w := new_ConfigSection options σ in
  _data (section w) = null ∧
  (_ajaxSettings (section w) ∉ dom σ) ∧
  objects w !! _ajaxSettings (section w)
  = Some (match ajaxSettings options with Some l => σ !!! l | None => ∅ end) ∧
  (∀ l o, σ !! l = Some o → objects w !! l = Some o) ∧
  (baseUrl options = None ∨ baseUrl options = Some "" →
   _url (section w)
   = urlPathJoin [getBaseUrl; "api/config"; urlJoinEncode [name options]]) ∧
  (∀ b, baseUrl options = Some b → b ≠ "" →
   _url (section w) = urlPathJoin [b; "api/config"; urlJoinEncode [name options]]).
Proof.
  intros w. unfold w, new_ConfigSection, set_ajaxSettings, copy, alloc.
  split; [by destruct (ajaxSettings options)|]. split; [|split; [|split; [|split]]].
  - destruct (ajaxSettings options) as [l|]; simpl; [apply is_fresh|].
    intros Hin. apply (is_fresh (dom (<[fresh (dom σ) := ∅]> σ))).
    rewrite dom_insert_L in Hin |- *. by apply elem_of_union_r.
  - destruct (ajaxSettings options) as [l|]; simpl; rewrite lookup_insert_eq; [done|].
    by rewrite lookup_total_insert_eq.
  - intros l o Hl. pose proof (fresh_ne _ _ (lookup_Some_dom _ _ _ Hl)) as Hne.
    destruct (ajaxSettings options) as [l'|]; simpl.
    + by rewrite lookup_insert_ne.
    + rewrite lookup_insert_ne; [by rewrite lookup_insert_ne|].
      apply fresh_ne. rewrite dom_insert_L. apply elem_of_union_r.
      eapply lookup_Some_dom; eauto.
  - intros [Hb|Hb]; rewrite Hb; by destruct (ajaxSettings options).
  - intros b Hb Hne. rewrite Hb. unfold nonempty.
    apply String.eqb_neq in Hne. rewrite Hne. by destruct (ajaxSettings options).
Qed.

(** X6: [getConfigSection] hands out the section only when it is loaded:
    a response with status 200 fulfils the promise with the section, whose
    data is the response body, and [get] does not raise on it when the
    body is an object and the class name, if there is one, is a key of
    that body; any other response, and a rejection by the transport,
    reject the promise and leave the section not loaded. *)
Theorem getConfigSection_outcomes (options : IOptions) (σ : Store) (o : AjaxOutcome) :
  let p := (getConfigSection options σ).1 in
  let w := (getConfigSection options σ).2 in
  _data (section w) = null ∧
  match o with
  | AjaxRejected e => settle p o w = (Rejected (AjaxError e), w)
  | AjaxResolved success =>
      if decide (xhr_status success = 200%N) then
        ∃ s, (settle p o w).1 = Fulfilled s ∧
             s = section (settle p o w).2 ∧
             _data s = data success ∧
             _url s = _url (section w) ∧
             (∀ c key d, data success = obj d →
                _className c = "" ∨ is_Some (d !! _className c) →
                ∃ v, get c s key = Normal v)
      else
        settle p o w = (Rejected (invalid_status (xhr_status success)), w)
  end.
Proof.
  intros p w. split.
  { unfold w, getConfigSection, new_ConfigSection. simpl.
    by destruct (ajaxSettings options). }
  destruct o as [success|e]; [|done].
  unfold p, settle, getConfigSection. simpl.
  destruct (decide (xhr_status success = 200%N)) as [E|Hne].
  - rewrite load_then_200 by done. eexists. split; [done|]. split; [done|].
    split; [done|]. split; [done|].
    intros c key d Hd Hc.
    erewrite get_loaded by (simpl; exact Hd).
    destruct (class_scoped_data c d Hc) as (x & Hx & Ht). rewrite Hx.
    destruct (get_member_data x key Ht) as [v ->]. rewrite bind_normal. eauto.
  - by rewrite load_then_other.
Qed.

(** X7: the settings given to [getConfigSection] reach the request: the
    GET carries them with [method], [dataType] and [cache] set, and the
    object of the caller is not written to. *)
Theorem getConfigSection_request (options : IOptions) (σ : Store) (l : loc)
    (o : JSONObject) :
  ajaxSettings options = Some l → σ !! l = Some o →
  let p := (getConfigSection options σ).1 in
  let w := (getConfigSection options σ).2 in
  objects w !!! request_settings p = load_settings o ∧
  objects w !! l = Some o ∧
  objects w !! _ajaxSettings (section w) = Some o ∧
  request_settings p ≠ l ∧ request_settings p ≠ _ajaxSettings (section w).
Proof.
  intros Hopt Hl p w.
  pose proof (fresh_ne _ _ (lookup_Some_dom _ _ _ Hl)) as Hne.
  set (σ1 := <[fresh (dom σ) := o]> σ).
  assert (fresh (dom σ1) ≠ l) as Hne1.
  { apply fresh_ne. unfold σ1. rewrite dom_insert_L. apply elem_of_union_r.
    eapply lookup_Some_dom; eauto. }
  assert (fresh (dom σ1) ≠ fresh (dom σ)) as Hne2.
  { apply fresh_ne. unfold σ1. rewrite dom_insert_L.
    by apply elem_of_union_l, elem_of_singleton. }
  unfold p, w, getConfigSection, load, new_ConfigSection, set_ajaxSettings,
    get_ajaxSettings, copy, alloc, assign, load_settings.
  rewrite Hopt. simpl. rewrite (lookup_total_correct _ _ _ Hl). fold σ1.
  rewrite !lookup_total_insert_eq.
  assert (σ1 !!! fresh (dom σ) = o) as -> by apply lookup_total_insert_eq.
  repeat split; try done.
  - rewrite !lookup_insert_ne by done. unfold σ1. by rewrite lookup_insert_ne.
  - rewrite !lookup_insert_ne by done. unfold σ1. by rewrite lookup_insert_eq.
Qed.

(** ** [set] followed by [get] *)

Lemma set_data (c : ConfigWithDefaults) (key : string) (value : JSONValue) (w : World) :
  key ≠ "__proto__" → _className c ≠ "__proto__" →
  _data (section (set c key value w).2)
  = obj (extend (_data (section w)) (set_payload c key value)).
Proof. intros Hk Hc. by rewrite (set_update c key value w Hk Hc). Qed.

(** X8: on a loaded section, for a key and a class name other than
    [__proto__] and a value that is a string, a number or a boolean,
    [get(key)] right after [set(key, value)], before any response, gives
    the value when it is truthy and [defaults[key]] when it is falsy. *)
Theorem get_after_set (c : ConfigWithDefaults) (key : string) (value : JSONValue)
    (w : World) (d : JSONObject) :
  key ≠ "__proto__" → _className c ≠ "__proto__" →
  is_primitive value = true →
  _data (section w) = obj d →
  get c (section (set c key value w).2) key
  = Normal (if truthy value then json value else read_object (_defaults c) key).
Proof.
  intros Hk Hcn _ Hd.
  pose proof (set_data c key value w Hk Hcn) as Hset. rewrite Hd in Hset.
  rewrite (get_loaded c _ _ key Hset).
  unfold class_scoped, set_payload, extend, read_object.
  destruct (nonempty (_className c)) eqn:Hc.
  - rewrite (lookup_union_Some_l _ _ _ (JObject {[ key := value ]}))
      by apply lookup_singleton_eq.
    simpl. unfold read_object. by rewrite lookup_singleton_eq.
  - simpl. unfold read_object.
    by rewrite (lookup_union_Some_l _ _ _ value) by apply lookup_singleton_eq.
Qed.

(** X9: without a class name, on a loaded section and for a key other
    than [__proto__], [set(key, value)] leaves what [get] gives for every
    other key as it was, before any response. *)
Theorem get_other_after_set (c : ConfigWithDefaults) (key other : string)
    (value : JSONValue) (w : World) (d : JSONObject) :
  _className c = "" → key ≠ "__proto__" → other ≠ key →
  _data (section w) = obj d →
  get c (section (set c key value w).2) other = get c (section w) other.
Proof.
  intros Hc Hk Hne Hd.
  assert (_className c ≠ "__proto__") as Hcn by by rewrite Hc.
  pose proof (set_data c key value w Hk Hcn) as Hset. rewrite Hd in Hset.
  rewrite (get_loaded c _ _ other Hset), (get_loaded c _ _ other Hd).
  unfold class_scoped, set_payload, extend. rewrite Hc. simpl.
  unfold read_object. rewrite lookup_union_r; [done|].
  by apply lookup_singleton_ne.
Qed.

(** X10: with a class name that names no inherited member, when
    [data[className]] is missing, [null], [false], [0], the empty string,
    a number or a boolean, [get(key)] does not consult the data: it gives
    what the built-in prototypes hold for the key if that is truthy and
    [defaults[key]] otherwise; so for a key that names no inherited member
    it gives the own entry of the defaults, or [undefined]. *)
Theorem get_without_class_entry (c : ConfigWithDefaults) (s : ConfigSection)
    (d : JSONObject) (key : string) :
  nonempty (_className c) = true →
  _data s = obj d →
  match d !! _className c with
  | None => inherited ObjectPrototype (_className c) = undefined
  | Some JNull | Some (JBool _) | Some (JNumber _) | Some (JString "") => True
  | _ => False
  end →
  (∃ p, get c s key = Normal (js_or (inherited p key) (read_object (_defaults c) key))) ∧
  ((∀ p, inherited p key = undefined) →
   get c s key = Normal (of_lookup (_defaults c !! key))).
Proof.
  intros Hc Hd Hentry.
  assert (∃ p, get c s key
               = Normal (js_or (inherited p key) (read_object (_defaults c) key)))
    as [p Hp].
  { rewrite (get_loaded c s d key Hd). unfold class_scoped. rewrite Hc. cbv zeta.
    assert (read_object d (_className c)
            = match d !! _className c with
              | Some x => json x
              | None => inherited ObjectPrototype (_className c)
              end) as -> by done.
    destruct (d !! _className c) as [[| b | x | str | l | m | proto m]|];
      try done.
    - by exists ObjectPrototype.
    - destruct b; by eauto.
    - simpl. destruct (negb _); by eauto.
    - destruct str; [|done]. by exists ObjectPrototype.
    - rewrite Hentry. by exists ObjectPrototype. }
  split; [eauto|]. intros Hno. rewrite Hp, Hno. unfold js_or, read_object. simpl.
  rewrite Hno. by destruct (_defaults c !! key).
Qed.


(** ** Several requests at once *)

(** X11: two updates in flight are not matched to their answers: when
    both are answered with status 200, in either order, [data] ends as the
    body of the answer that came last, whatever the two partials were, and
    no request is left in flight. *)
Theorem last_response_wins (w : World) (p1 p2 : JSONObject) (s1 s2 : IAjaxSuccess)
    (i : nat) :
  xhr_status s1 = 200%N → xhr_status s2 = 200%N → i < 2 →
  let r := run (start w) [CallUpdate p1; CallUpdate p2;
                          Settle i (AjaxResolved s1); Settle 0 (AjaxResolved s2)] in
  data_of r = data s2 ∧ pending r = [].
Proof.
  intros E1 E2 Hi r.
  assert (pending (run (start w) [CallUpdate p1; CallUpdate p2;
                                  Settle i (AjaxResolved s1)])
          = [if decide (i = 0) then PendingUpdate (update p2 (update p1 w).2).1
             else PendingUpdate (update p1 w).1]) as Hpending.
  { destruct i as [|[|i]]; [done|done|lia]. }
  change r with (run (start w) ([CallUpdate p1; CallUpdate p2;
                                 Settle i (AjaxResolved s1)]
                                ++ [Settle 0 (AjaxResolved s2)])).
  rewrite run_app. split.
  - apply data_step_success; [apply pending_ok_run, pending_ok_start| |done].
    rewrite Hpending. simpl. lia.
  - simpl. unfold run in Hpending. simpl in Hpending. by rewrite Hpending.
Qed.

(** ** The constructor of [ConfigWithDefaults] *)

(** X13: a config built without a class name, or with the empty string
    for one, reads the key on [data] itself and falls back on the defaults
    given, or on an empty object without them; for a key that names no
    inherited member that is the own entry of [data] when it is truthy,
    else the own entry of the defaults, else [undefined]. *)
Theorem get_without_class_name (options : ConfigWithDefaults_IOptions)
    (s : ConfigSection) (d : JSONObject) (key : string) :
  className options = None ∨ className options = Some "" →
  _data s = obj d →
  get (new_ConfigWithDefaults options) s key
  = Normal (js_or (read_object d key) (read_object (default ∅ (defaults options)) key)) ∧
  (inherited ObjectPrototype key = undefined →
   get (new_ConfigWithDefaults options) s key
   = Normal (if to_boolean (of_lookup (d !! key)) then of_lookup (d !! key)
             else match defaults options with
                  | Some defs => of_lookup (defs !! key)
                  | None => undefined
                  end)).
Proof.
  intros Hc Hd.
  assert (get (new_ConfigWithDefaults options) s key
          = Normal (js_or (read_object d key)
                      (read_object (default ∅ (defaults options)) key))) as Hget.
  { rewrite (get_loaded _ s d key Hd). unfold class_scoped.
    assert (_className (new_ConfigWithDefaults options) = "") as ->
      by by destruct Hc as [Hc|Hc]; unfold new_ConfigWithDefaults; rewrite Hc.
    change (nonempty "") with false. cbv iota.
    change (get_member (json (JObject d)) key) with (get_property (JObject d) key).
    by rewrite get_property_object, bind_normal. }
  split; [done|]. intros Hno. rewrite Hget. unfold js_or, read_object. rewrite Hno.
  destruct (d !! key) as [x|]; simpl.
  - destruct (truthy x); [done|].
    destruct (defaults options) as [defs|]; simpl; [by destruct (defs !! key)|].
    by rewrite lookup_empty.
  - destruct (defaults options) as [defs|]; simpl; [by destruct (defs !! key)|].
    by rewrite lookup_empty.
Qed.

End Coverage.

(** ** These properties at concrete inputs *)

Lemma update_request_other_settings_witness :
  (objects (update (H:=example_externals) foo_baz caller_section).2
     !!! request_settings (update (H:=example_externals) foo_baz caller_section).1)
    !! "timeout"
  = (objects caller_section !!! _ajaxSettings (section caller_section)) !! "timeout".
Proof.
  refine (proj1 (update_request_other_settings (H:=example_externals) foo_baz
    caller_section "timeout" _ _ _ _)); discriminate.
Defined.

Lemma run_preserves_objects_witness :
  objects (world (run (H:=example_externals) (start caller_section)
    [CallLoad; Settle 0 (respond 200 foo_bar); CallUpdate foo_baz])) !! 1%positive
  = Some caller_settings.
Proof.
  refine (proj1 (run_preserves_objects (H:=example_externals) caller_section
    [CallLoad; Settle 0 (respond 200 foo_bar); CallUpdate foo_baz] 1%positive
    caller_settings _)).
  vm_compute. reflexivity.
Defined.

Lemma getConfigSection_request_witness :
  objects (getConfigSection (H:=example_externals) options_with_settings caller_store).2
    !!! request_settings
          (getConfigSection (H:=example_externals) options_with_settings caller_store).1
  = load_settings caller_settings.
Proof.
  refine (proj1 (getConfigSection_request (H:=example_externals) options_with_settings
    caller_store 1%positive caller_settings _ _)).
  - reflexivity.
  - vm_compute. reflexivity.
Defined.

Lemma get_after_set_witness :
  get (realm:=example_realm) test_config
    (section (set (H:=example_externals) test_config "foo" (JString "bar")
                (loaded {[ "testclass" := JObject spam_eggs ]})).2) "foo"
  = Normal (json (JString "bar")).
Proof.
  refine (get_after_set (H:=example_externals) (realm:=example_realm) test_config "foo"
    (JString "bar") (loaded {[ "testclass" := JObject spam_eggs ]})
    {[ "testclass" := JObject spam_eggs ]} _ _ _ _).
  - discriminate.
  - discriminate.
  - reflexivity.
  - reflexivity.
Defined.

Lemma get_other_after_set_witness :
  get (realm:=example_realm) plain_config
    (section (set (H:=example_externals) plain_config "spam" (JString "ham")
                (loaded foo_bar)).2) "foo"
  = get (realm:=example_realm) plain_config (section (loaded foo_bar)) "foo".
Proof.
  refine (get_other_after_set (H:=example_externals) (realm:=example_realm) plain_config
    "spam" "foo" (JString "ham") (loaded foo_bar) foo_bar _ _ _ _).
  - reflexivity.
  - discriminate.
  - discriminate.
  - reflexivity.
Defined.

Lemma get_without_class_entry_witness :
  get (realm:=example_realm) test_config (section (loaded foo_bar)) "spam"
  = Normal (of_lookup (_defaults test_config !! "spam")).
Proof.
  refine (proj2 (get_without_class_entry (realm:=example_realm) test_config
    (section (loaded foo_bar)) foo_bar "spam" _ _ _) _).
  - reflexivity.
  - reflexivity.
  - vm_compute. reflexivity.
  - intros p. reflexivity.
Defined.


Lemma last_response_wins_witness :
  data_of (run (H:=example_externals) (start (loaded ∅))
    [CallUpdate foo_bar; CallUpdate foo_baz;
     Settle 1 (respond 200 foo_baz); Settle 0 (respond 200 foo_bar)])
  = obj foo_bar.
Proof.
  refine (proj1 (last_response_wins (H:=example_externals) (loaded ∅) foo_bar foo_baz
    {| data := obj foo_baz; xhr_status := 200 |}
    {| data := obj foo_bar; xhr_status := 200 |} 1 _ _ _)).
  - reflexivity.
  - reflexivity.
  - lia.
Defined.

Lemma get_without_class_name_witness :
  get (realm:=example_realm)
    (new_ConfigWithDefaults {| defaults := None; className := Some "" |})
    (section (loaded foo_bar)) "spam"
  = Normal undefined.
Proof.
  refine (proj2 (get_without_class_name (realm:=example_realm)
    {| defaults := None; className := Some "" |}
    (section (loaded foo_bar)) foo_bar "spam" _ _) _).
  - by right.
  - reflexivity.
  - reflexivity.
Defined.
